(** * samlify: the identity provider entity (src/entity-idp.ts)

    A shallow embedding of [IdentityProvider]: its constructor (the merge of
    the default settings with the caller's [idpSetting] and the preparation
    of the login-response template), its two methods, [createLoginResponse]
    and [parseLoginRequest], and the default export that builds one.

    The file imports [./entity], [./libsaml], [./urn] and [./binding-post];
    what it calls from them is taken as a parameter of the section
    [IdentityProvider] below. *)

From stdpp Require Import gmap strings list fin_maps pretty.

Set Warnings "-register-all".
Set Default Proof Using "Type".

Local Open Scope string_scope.

(** ** JavaScript values *)

(** The values that configuration objects, requests and payloads are made
    of. Numbers are the integral ones (a setting never holds NaN or a
    fraction here); [VRef] is a function or a host object, known by name
    only and compared by identity. *)
Inductive value : Type :=
  | VUndefined
  | VNull
  | VBool (b : bool)
  | VNum (n : Z)
  | VStr (s : string)
  | VArr (elems : list value)
  | VObj (props : gmap string value)
  | VRef (name : string).

(** An object is the finite map of its own enumerable properties. *)
Abbreviation object := (gmap string value).

(** Errors a call can throw. [Error] and [TypeError] are JavaScript's; the
    last four are the failure kinds of the generic parser (section 7 of the
    specification), which lives in [./entity]. *)
Inductive exn : Type :=
  | Error (message : string)
  | TypeError (reading : string)
  | BindingDecodeError
  | MalformedXmlError
  | SignatureVerificationError
  | MissingRequiredElementError.

Inductive result (A : Type) : Type :=
  | Ok (a : A)
  | Throw (e : exn).
Arguments Ok {A} a.
Arguments Throw {A} e.

(** ToBoolean. *)
Definition truthy (v : value) : bool :=
  match v with
  | VUndefined | VNull => false
  | VBool b => b
  | VNum n => negb (n =? 0)%Z
  | VStr s => negb (String.eqb s "")
  | VArr _ | VObj _ | VRef _ => true
  end.

(** [a || b] *)
Definition or_else (a b : value) : value := if truthy a then a else b.

(** [a === b] on primitives and references. Two object or array literals
    are never identical; no comparison of this file involves one. *)
Definition strict_eq (a b : value) : bool :=
  match a, b with
  | VUndefined, VUndefined | VNull, VNull => true
  | VBool x, VBool y => Bool.eqb x y
  | VNum x, VNum y => (x =? y)%Z
  | VStr x, VStr y => String.eqb x y
  | VRef x, VRef y => String.eqb x y
  | _, _ => false
  end.

(** lodash's [isString] and [Array.isArray]. *)
Definition isString (v : value) : bool :=
  match v with VStr _ => true | _ => false end.

Definition Array_isArray (v : value) : bool :=
  match v with VArr _ => true | _ => false end.

(** The members every object inherits from [Object.prototype]. *)
Definition Object_prototype : list string :=
  [ "constructor"; "hasOwnProperty"; "isPrototypeOf"; "propertyIsEnumerable";
    "toLocaleString"; "toString"; "valueOf"; "__proto__";
    "__defineGetter__"; "__defineSetter__"; "__lookupGetter__";
    "__lookupSetter__" ].

Definition inherited (k : string) : bool :=
  bool_decide (k ∈ Object_prototype).

(** [o[k]] for an object [o]: the own property, else the inherited member,
    else undefined. *)
Definition get (o : object) (k : string) : value :=
  match o !! k with
  | Some v => v
  | None => if inherited k then VRef k else VUndefined
  end.

(** [v.k] for an arbitrary receiver: reading a property of undefined or
    null throws; primitives, arrays and references have none of the
    properties this file reads ([context], [attributes]) of their own. *)
Definition member (v : value) (k : string) : result value :=
  match v with
  | VUndefined | VNull => Throw (TypeError k)
  | VObj o => Ok (get o k)
  | _ => Ok (if inherited k then VRef k else VUndefined)
  end.

(** [v.k] where the receiver is known not to be undefined or null. *)
Definition prop (v : value) (k : string) : value :=
  match member v k with
  | Ok x => x
  | Throw _ => VUndefined
  end.

(** [Object.assign(target, source)]: every own property of [source] is
    assigned to [target], also one whose value is undefined. The result is
    the own properties of the target. An assignment to [__proto__] binds
    the key only when the target has it as an own property already;
    otherwise it runs the setter inherited from [Object.prototype] and
    binds nothing. Properties are plain data properties throughout
    (writable and enumerable), as in literals and parsed JSON, so every
    other assignment binds its key. *)
Definition Object_assign (target source : object) : object :=
  match target !! "__proto__" with
  | Some _ => source ∪ target
  | None => delete "__proto__" source ∪ target
  end.

(** The prototype that setter gives the target: the value of the source's
    own [__proto__] when it is an object, an array, a reference or null;
    [None] when the prototype stays what it was. *)
Definition assigned_prototype (target source : object) : option value :=
  match target !! "__proto__", source !! "__proto__" with
  | None, Some v =>
      match v with
      | VObj _ | VArr _ | VRef _ | VNull => Some v
      | _ => None
      end
  | _, _ => None
  end.

(** The own enumerable properties an object spread [{...v}] copies. *)
Definition spread (v : value) : object :=
  match v with
  | VObj o => o
  | VArr l => list_to_map (imap (λ i x, (pretty i, x)) l)
  | VStr s =>
      list_to_map (imap (λ i c, (pretty i, VStr (String c EmptyString)))
                        (String.list_ascii_of_string s))
  | _ => ∅
  end.

(** A binding table is well formed when it names the POST protocol, and
    names it under [post] only. *)
Definition post_is_unique (table : gmap string string) : bool :=
  match table !! "post" with
  | Some urn =>
      forallb (λ '(k, v), String.eqb k "post" || negb (String.eqb v urn))
              (map_to_list table)
  | None => false
  end.

(** ** Effects *)

(** A computation reads and writes the world (console, entities, whatever
    the collaborators touch) and returns or throws. The world an exception
    leaves behind is kept: what was done before the throw stays done. *)
Definition M (W A : Type) : Type := W → result A * W.

#[global] Instance M_ret {W} : MRet (M W) := λ A a w, (Ok a, w).

#[global] Instance M_bind {W} : MBind (M W) := λ A B f m w,
  match m w with
  | (Ok a, w') => f a w'
  | (Throw e, w') => (Throw e, w')
  end.

Definition throw {W A} (e : exn) : M W A := λ w, (Throw e, w).

(** A pure step that may throw. *)
Definition lift {W A} (r : result A) : M W A := λ w, (r, w).

(** An effect without a result. *)
Definition perform {W} (f : W → W) : M W unit := λ w, (Ok tt, f w).

(** ** The identity provider *)

(** The options object [parseLoginRequest] hands to the generic parser. *)
Record ParserOptions (Entity : Type) : Type := mkParserOptions {
  parserFormat : list value;
  from : Entity;
  checkSignature : value;
  parserType : string;
  type : string
}.
Arguments mkParserOptions {Entity}.
Arguments parserFormat {Entity}.
Arguments from {Entity}.
Arguments checkSignature {Entity}.
Arguments parserType {Entity}.
Arguments type {Entity}.

Definition defaultIdpEntitySetting : object :=
  {[ "wantAuthnRequestsSigned" := VBool false;
     "tagPrefix" := VObj {[ "encryptedAssertion" := VStr "saml" ]} ]}.

Section IdentityProvider.

(** The world and the entity objects (identity and service providers)
    living in it. *)
Context {World Entity : Type}.

(** [console.warn] *)
Variable console_warn : string → World → World.

(** [namespace.binding] of [./urn]: binding name to protocol URN. *)
Variable namespace_binding : gmap string string.

(** [./libsaml] *)
Variable attributeStatementBuilder : value → result string.
Variable replaceTagsByValue : value → object → result string.

(** [./binding-post]: [base64LoginResponse(requestInfo, {idp, sp}, user,
    customTagReplacement, encryptThenSign)] *)
Variable base64LoginResponse :
  value → Entity → Entity → value → value → value → M World value.

(** [./entity]: the super constructor, [this.genericParser] and the two
    metadata accessors read through [entityMeta]. *)
Variable Entity_constructor : object → string → M World Entity.
Variable genericParser :
  Entity → ParserOptions Entity → string → value → M World value.
Variable getAssertionConsumerService : Entity → string → M World value.
Variable isWantAuthnRequestsSigned : Entity → M World value.

(** Lines 56-76: the settings object the constructor builds and hands to
    [super], by its own properties; its prototype is [Object.prototype]
    unless the merge of line 62 gave it another ([assigned_prototype]).
    [idpSetting] is an object with the properties it owns, as a literal or
    parsed JSON is. *)
Definition constructor_entitySetting (idpSetting : object) : M World object :=
  let entitySetting := Object_assign defaultIdpEntitySetting idpSetting in
  if truthy (get idpSetting "loginResponseTemplate") then
    valid ←
      (context ← lift (member (get idpSetting "loginResponseTemplate") "context");
       if isString context then
         attributes ←
           lift (member (get idpSetting "loginResponseTemplate") "attributes");
         mret (Array_isArray attributes)
       else mret false);
    if valid : bool then
      attributes ←
        lift (member (get idpSetting "loginResponseTemplate") "attributes");
      statement ← lift (attributeStatementBuilder attributes);
      let replacement : object := {[ "AttributeStatement" := VStr statement ]} in
      let template := get entitySetting "loginResponseTemplate" in
      old ← lift (member template "context");
      new ← lift (replaceTagsByValue old replacement);
      mret (<[ "loginResponseTemplate" :=
                 VObj (<[ "context" := VStr new ]> (spread template)) ]>
              entitySetting)
    else
      _ ← perform (console_warn "Invalid login response template");
      mret entitySetting
  else mret entitySetting.

(** Lines 55-78. *)
Definition constructor (idpSetting : object) : M World Entity :=
  entitySetting ← constructor_entitySetting idpSetting;
  Entity_constructor entitySetting "idp".

(** Lines 23-25: the module's default export, [props => new
    IdentityProvider(props)]. *)
Definition default_export (props : object) : M World Entity :=
  constructor props.

(** [namespace.binding] as the object it is: its own properties are the
    URNs, and it inherits from [Object.prototype] like any literal. *)
Definition namespace : object := VStr <$> namespace_binding.

(** Lines 89-107. [binding] is a string (its JSDoc type); the two optional
    arguments are undefined when left out. The method is async: [Ok] is the
    value its promise resolves to, [Throw] the error it is rejected with. *)
Definition createLoginResponse (this sp : Entity) (requestInfo : value)
    (binding : string) (user customTagReplacement encryptThenSign : value)
    : M World value :=
  let protocol := or_else (get namespace binding) (get namespace "redirect") in
  if strict_eq protocol (get namespace "post") then
    context ← base64LoginResponse requestInfo this sp user
                customTagReplacement encryptThenSign;
    entityEndpoint ← getAssertionConsumerService sp binding;
    mret (VObj (<[ "type" := VStr "SAMLResponse" ]>
                  (<[ "entityEndpoint" := entityEndpoint ]> (spread context))))
  else throw (Error "this binding is not supported").

(** The array literal of lines 117-126. *)
Definition loginRequestParserFormat : list value :=
  [ VStr "AuthnContextClassRef";
    VStr "Issuer";
    VObj {[ "localName" := VStr "Signature";
            "extractEntireBody" := VBool true ]};
    VObj {[ "localName" := VStr "AuthnRequest";
            "attributes" := VArr [VStr "ID"] ]};
    VObj {[ "localName" := VStr "NameIDPolicy";
            "attributes" := VArr [VStr "Format"; VStr "AllowCreate"] ]} ].

(** Lines 115-132. The options literal is evaluated, accessor call
    included, before the parser is entered. *)
Definition parseLoginRequest (this sp : Entity) (binding : string)
    (req : value) : M World value :=
  wanted ← isWantAuthnRequestsSigned this;
  genericParser this
    {| parserFormat := loginRequestParserFormat;
       from := sp;
       checkSignature := wanted;
       parserType := "SAMLRequest";
       type := "login" |}
    binding req.

End IdentityProvider.

(** ** The generic parser, from the specification *)

(** One entry of a parser format, in the words of the specification: an
    element name, or a descriptor asking for some attributes of an element
    or for its entire serialized body. *)
Inductive field : Type :=
  | ElementText (localName : string)
  | EntireBody (localName : string)
  | ElementAttributes (localName : string) (attributes : list string).

(** The field spec of [parseLoginRequest] as section 4.7 of the
    specification words it. *)
Definition login_request_fields : list field :=
  [ ElementText "AuthnContextClassRef";
    ElementText "Issuer";
    EntireBody "Signature";
    ElementAttributes "AuthnRequest" ["ID"];
    ElementAttributes "NameIDPolicy" ["Format"; "AllowCreate"] ].

Definition string_of (v : value) : option string :=
  match v with VStr s => Some s | _ => None end.

(** Modelled from the spec: how the generic parser of [./entity] reads one
    entry of [parserFormat] (section 3, ParsedRequestResult: a list of
    element names, or descriptors requesting specific attributes or the
    entire serialized subtree). *)
Definition describe (entry : value) : option field :=
  match entry with
  | VStr name => Some (ElementText name)
  | VObj d =>
      match d !! "localName" with
      | Some (VStr name) =>
          if truthy (get d "extractEntireBody") then Some (EntireBody name)
          else match d !! "attributes" with
               | Some (VArr l) => ElementAttributes name <$> mapM string_of l
               | _ => None
               end
      | _ => None
      end
  | _ => None
  end.

Section GenericParser.

Context {World Entity Dom Cert : Type}.

(** The binding codecs (4.4, 4.5), the XML parser, the signature engine
    (4.2), the certificate a peer is trusted by and the extraction of the
    requested fields; [None] is the failure of the step. *)
Variable decode : string → value → option string.
Variable parse_xml : string → option Dom.
Variable has_signature : Dom → bool.
Variable verify : string → Cert → bool.
Variable certificate : Entity → World → Cert.
Variable extract_fields : list value → Dom → option object.

(** Modelled from the spec: [genericParser] of [./entity], the five steps
    of section 4.6. Decoding, parsing and verification failures return
    nothing; a missing required element fails the whole call. *)
Definition genericParser_spec (this : Entity) (spec : ParserOptions Entity)
    (binding : string) (raw : value) : M World value := λ w,
  match decode binding raw with
  | None => (Throw BindingDecodeError, w)
  | Some xml =>
      match parse_xml xml with
      | None => (Throw MalformedXmlError, w)
      | Some doc =>
          if truthy (checkSignature spec)
             && negb (has_signature doc && verify xml (certificate (from spec) w))
          then (Throw SignatureVerificationError, w)
          else match extract_fields (parserFormat spec) doc with
               | None => (Throw MissingRequiredElementError, w)
               | Some fields => (Ok (VObj fields), w)
               end
      end
  end.

End GenericParser.

(** ** A concrete deployment

    One identity provider (entity 0) and one service provider (entity 1)
    with simple collaborators, on which the statements below are run. *)
Module Fixture.

Record world : Type := mkWorld {
  console : list string;
  settings : gmap nat object
}.

Definition warn (message : string) (w : world) : world :=
  {| console := console w ++ [message]; settings := settings w |}.

(** [e.entitySetting] *)
Definition entitySetting (e : nat) (w : world) : object :=
  default ∅ (settings w !! e).

(** The SAML 2.0 binding URNs. *)
Definition bindings : gmap string string :=
  {[ "redirect" := "urn:oasis:names:tc:SAML:2.0:bindings:HTTP-Redirect";
     "post" := "urn:oasis:names:tc:SAML:2.0:bindings:HTTP-POST";
     "artifact" := "urn:oasis:names:tc:SAML:2.0:bindings:HTTP-Artifact" ]}.

(** Every occurrence of [pat] in [s] becomes [rep]; [skip] counts the
    characters of a match still to be dropped. *)
Fixpoint replace_from (pat rep : string) (skip : nat) (s : string) : string :=
  match s with
  | EmptyString => EmptyString
  | String c rest =>
      match skip with
      | S n => replace_from pat rep n rest
      | O =>
          if String.prefix pat s
          then rep ++ replace_from pat rep (String.length pat - 1) rest
          else String c (replace_from pat rep 0 rest)
      end
  end.

Definition replace_all (pat rep s : string) : string :=
  match pat with
  | EmptyString => s
  | _ => replace_from pat rep 0 s
  end.

(** One [Attribute] element per descriptor, in the order given. *)
Definition attribute (descriptor : value) : result string :=
  match descriptor with
  | VObj d =>
      match d !! "name", d !! "valueTag" with
      | Some (VStr name), Some (VStr tag) =>
          Ok ("<saml:Attribute Name='" ++ name ++ "'><saml:AttributeValue>{attr"
                ++ tag ++ "}</saml:AttributeValue></saml:Attribute>")
      | _, _ => Throw (TypeError "name")
      end
  | _ => Throw (TypeError "name")
  end.

Fixpoint attributes_xml (descriptors : list value) : result string :=
  match descriptors with
  | [] => Ok ""
  | d :: rest =>
      match attribute d, attributes_xml rest with
      | Ok x, Ok xs => Ok (x ++ xs)
      | Throw e, _ | _, Throw e => Throw e
      end
  end.

Definition attributeStatementBuilder (attributes : value) : result string :=
  match attributes with
  | VArr l =>
      match attributes_xml l with
      | Ok xs => Ok ("<saml:AttributeStatement>" ++ xs ++ "</saml:AttributeStatement>")
      | Throw e => Throw e
      end
  | _ => Throw (TypeError "map")
  end.

(** Every [{tag}] placeholder of the context is replaced by its value. *)
Definition replaceTagsByValue (rawXML : value) (tagValues : object)
    : result string :=
  match rawXML with
  | VStr xml =>
      Ok (map_fold (λ tag v acc,
                      match v with
                      | VStr rep => replace_all ("{" ++ tag ++ "}") rep acc
                      | _ => acc
                      end) xml tagValues)
  | _ => Throw (TypeError "replace")
  end.

Definition base64LoginResponse (requestInfo : value) (idp sp : nat)
    (user customTagReplacement encryptThenSign : value) : M world value :=
  mret (VObj {[ "id" := VStr "_8e8dc5f69a98cc4c1ff3427e5ce34606fd672f91e6";
                "context" := VStr "PHNhbWxwOlJlc3BvbnNlLz4=" ]}).

Definition getAssertionConsumerService (sp : nat) (binding : string)
    : M world value := λ w,
  (Ok (get (entitySetting sp w) ("assertionConsumerService." ++ binding)), w).

Definition isWantAuthnRequestsSigned (e : nat) : M world value := λ w,
  (Ok (get (entitySetting e w) "wantAuthnRequestsSigned"), w).

(** The transport value is the XML itself and a document is its text. A
    signed message opens with a comment naming the signer's certificate
    and the digest of the body that follows. *)
Definition decode (binding : string) (raw : value) : option string :=
  string_of raw.

Definition parse_xml (xml : string) : option string := Some xml.

Fixpoint digest (body : string) : N :=
  match body with
  | EmptyString => 7
  | String c rest => (Ascii.N_of_ascii c + 31 * digest rest) mod 65521
  end%N.

Definition sign (cert body : string) : string :=
  "<!--" ++ cert ++ ":" ++ pretty (digest body) ++ "-->" ++ body.

(** What follows the first [-->]. *)
Fixpoint signed_body (xml : string) : option string :=
  match xml with
  | EmptyString => None
  | String _ rest =>
      if String.prefix "-->" xml
      then Some (String.substring 3 (String.length xml - 3) xml)
      else signed_body rest
  end.

Definition has_signature (doc : string) : bool :=
  String.prefix "<!--" doc.

Definition verify (xml cert : string) : bool :=
  match signed_body xml with
  | Some body => String.eqb xml (sign cert body)
  | None => false
  end.

Definition certificate (e : nat) (w : world) : string :=
  match get (entitySetting e w) "signingCert" with
  | VStr cert => cert
  | _ => ""
  end.

Definition extract_fields (format : list value) (doc : string)
    : option object :=
  Some {[ "issuer" := VStr doc ]}.

Definition genericParser :
    nat → ParserOptions nat → string → value → M world value :=
  genericParser_spec decode parse_xml has_signature verify certificate
    extract_fields.

Definition idp : nat := 0.
Definition sp : nat := 1.

Definition w0 : world :=
  {| console := [];
     settings :=
       {[ idp := {[ "entityID" := VStr "https://idp.example.org/metadata";
                    "wantAuthnRequestsSigned" := VBool true ]};
          sp := {[ "entityID" := VStr "https://sp.example.org/metadata";
                   "signingCert" := VStr "MIIDsp";
                   "assertionConsumerService.post" :=
                     VStr "https://sp.example.org/sp/sso" ]} ]} |}.

(** The super constructor files the settings under a fresh entity. *)
Definition Entity_constructor (entitySetting : object) (entityType : string)
    : M world nat := λ w,
  let e := size (settings w) in
  (Ok e, {| console := console w;
            settings := <[ e := entitySetting ]> (settings w) |}).

(** A login-response template with two attributes. *)
Definition template : object :=
  {[ "context" := VStr "<samlp:Response>{AttributeStatement}</samlp:Response>";
     "attributes" :=
       VArr [ VObj {[ "name" := VStr "mail"; "valueTag" := VStr "Mail" ]};
              VObj {[ "name" := VStr "name"; "valueTag" := VStr "Name" ]} ] ]}.

(** Caller settings: none but the entity id; a custom template; a
    template without its attribute list; an empty [tagPrefix]; and
    [wantAuthnRequestsSigned] bound to undefined. *)
Definition plain : object :=
  {[ "entityID" := VStr "https://idp.example.org/metadata" ]}.

Definition custom : object :=
  {[ "entityID" := VStr "https://idp.example.org/metadata";
     "loginResponseTemplate" := VObj template ]}.

Definition malformed : object :=
  {[ "entityID" := VStr "https://idp.example.org/metadata";
     "loginResponseTemplate" :=
       VObj {[ "context" := VStr "<samlp:Response>{AttributeStatement}</samlp:Response>" ]} ]}.

Definition bare_prefix : object :=
  {[ "entityID" := VStr "https://idp.example.org/metadata";
     "tagPrefix" := VObj ∅ ]}.

Definition unset_flag : object :=
  {[ "entityID" := VStr "https://idp.example.org/metadata";
     "wantAuthnRequestsSigned" := VUndefined ]}.

(** A request the service provider signed, and the same request with the
    [Format] of its [NameIDPolicy] altered after signing. *)
Definition request_body (format : string) : string :=
  "<samlp:AuthnRequest ID='_809707f0030a5d00620c9d9df97f627afe9dcc24'>"
  ++ "<saml:Issuer>https://sp.example.org/metadata</saml:Issuer>"
  ++ "<samlp:NameIDPolicy Format='" ++ format ++ "' AllowCreate='false'/>"
  ++ "</samlp:AuthnRequest>".

Definition genuine : string :=
  sign "MIIDsp"
    (request_body "urn:oasis:names:tc:SAML:1.1:nameid-format:emailAddress").

Definition altered : string :=
  "<!--MIIDsp:"
  ++ pretty (digest (request_body
                       "urn:oasis:names:tc:SAML:1.1:nameid-format:emailAddress"))
  ++ "-->"
  ++ request_body "urn:oasis:names:tc:SAML:1.1:nameid-format:unspecified".

(** A present template that is falsy. *)
Definition null_template : object :=
  {[ "entityID" := VStr "https://idp.example.org/metadata";
     "loginResponseTemplate" := VNull ]}.

(** Settings as [JSON.parse] makes them from a text with a [__proto__]
    member: the key is an own property of the parsed object. *)
Definition parsed : object :=
  {[ "entityID" := VStr "https://idp.example.org/metadata";
     "__proto__" := VObj {[ "isAssertionEncrypted" := VBool true ]} ]}.

(** A template whose attribute list holds something that is no
    descriptor: the statement builder throws on it. *)
Definition broken : object :=
  {[ "entityID" := VStr "https://idp.example.org/metadata";
     "loginResponseTemplate" :=
       VObj {[ "context" := VStr "<samlp:Response>{AttributeStatement}</samlp:Response>";
               "attributes" := VArr [VNull] ]} ]}.

(** A response builder that needs the private key of the identity
    provider and leaves a trace of the signature on the console, and an
    endpoint accessor that fails when the service provider has no
    endpoint for the binding. *)
Definition signing_base64LoginResponse (requestInfo : value) (idp sp : nat)
    (user customTagReplacement encryptThenSign : value) : M world value := λ w,
  match get (entitySetting idp w) "privateKey" with
  | VStr _ =>
      (Ok (VObj {[ "id" := VStr "_8e8dc5f69a98cc4c1ff3427e5ce34606fd672f91e6";
                   "context" := VStr "PHNhbWxwOlJlc3BvbnNlLz4=" ]}),
       warn "signed _8e8dc5f69a98cc4c1ff3427e5ce34606fd672f91e6" w)
  | _ => (Throw (Error "ERR_NO_PRIVATE_KEY"), w)
  end.

Definition checked_getAssertionConsumerService (sp : nat) (binding : string)
    : M world value := λ w,
  match get (entitySetting sp w) ("assertionConsumerService." ++ binding) with
  | VStr url => (Ok (VStr url), w)
  | _ => (Throw (Error "ERR_NO_ASSERTION_CONSUMER_SERVICE"), w)
  end.

(** The identity provider holds a key; the service provider publishes no
    endpoint. *)
Definition w1 : world :=
  {| console := [];
     settings :=
       {[ idp := {[ "entityID" := VStr "https://idp.example.org/metadata";
                    "privateKey" := VStr "MIIEidp" ]};
          sp := {[ "entityID" := VStr "https://sp.example.org/metadata" ]} ]} |}.

End Fixture.

(** ** Properties *)

(** Unfolds the monad down to the world-passing function it stands for. *)
Ltac run :=
  unfold mbind, M_bind, mret, M_ret, lift, throw, perform in *; simpl in *.

Lemma get_own (o : object) (k : string) (v : value) :
  o !! k = Some v → get o k = v.
Proof. intros H. unfold get. by rewrite H. Qed.

Lemma Object_assign_source (target source : object) (k : string) (v : value) :
  source !! k = Some v → k ≠ "__proto__" →
  Object_assign target source !! k = Some v.
Proof.
  intros H Hk. unfold Object_assign.
  destruct (target !! "__proto__"); apply lookup_union_Some_l; [done|].
  by rewrite lookup_delete_ne.
Qed.

Lemma Object_assign_target (target source : object) (k : string) :
  source !! k = None → Object_assign target source !! k = target !! k.
Proof.
  intros H. unfold Object_assign.
  destruct (target !! "__proto__"); rewrite lookup_union_r; try done.
  rewrite lookup_delete. by case_decide.
Qed.

(** A target without an own [__proto__] never gets one. *)
Lemma Object_assign_proto (target source : object) :
  target !! "__proto__" = None →
  Object_assign target source !! "__proto__" = None.
Proof.
  intros H. unfold Object_assign. rewrite H.
  apply lookup_union_None. split; [apply lookup_delete_eq|done].
Qed.

Lemma member_truthy (v : value) (k : string) :
  truthy v = true → member v k = Ok (prop v k).
Proof. unfold prop. by destruct v. Qed.

Lemma get_namespace (table : gmap string string) (k : string) :
  get (VStr <$> table) k =
    match table !! k with
    | Some urn => VStr urn
    | None => if inherited k then VRef k else VUndefined
    end.
Proof. unfold get. rewrite lookup_fmap. by destruct (table !! k). Qed.

Lemma post_is_unique_spec (table : gmap string string) :
  post_is_unique table = true →
  ∃ urn, table !! "post" = Some urn ∧
         ∀ k, table !! k = Some urn → k = "post".
Proof.
  unfold post_is_unique. destruct (table !! "post") as [urn|] eqn:Hpost; [|done].
  intros Hall. exists urn. split; [done|]. intros k Hk.
  rewrite forallb_forall in Hall.
  apply elem_of_map_to_list, list_elem_of_In, Hall in Hk.
  apply orb_prop in Hk as [Hk|Hk].
  - by apply String.eqb_eq.
  - by rewrite String.eqb_refl in Hk.
Qed.

(** Under a well-formed table the protocol a binding other than [post]
    resolves to is not the POST protocol. *)
Lemma protocol_not_post (table : gmap string string) (binding : string) :
  post_is_unique table = true → binding ≠ "post" →
  strict_eq (or_else (get (VStr <$> table) binding)
                     (get (VStr <$> table) "redirect"))
            (get (VStr <$> table) "post") = false.
Proof.
  intros (urn & Hpost & Honly)%post_is_unique_spec Hne.
  assert (Hother : ∀ k, k ≠ "post" →
            strict_eq (get (VStr <$> table) k) (VStr urn) = false).
  { intros k Hk. rewrite get_namespace.
    destruct (table !! k) as [u|] eqn:Hu; simpl.
    - apply String.eqb_neq. intros ->. by apply Hk, Honly.
    - by destruct (inherited k). }
  rewrite (get_namespace table "post"), Hpost.
  unfold or_else. destruct (truthy _); by apply Hother.
Qed.

Section Constructor.

Context {World Entity : Type}.
Variable console_warn : string → World → World.
Variable attributeStatementBuilder : value → result string.
Variable replaceTagsByValue : value → object → result string.
Variable Entity_constructor : object → string → M World Entity.

Local Abbreviation settings_for_super :=
  (constructor_entitySetting console_warn attributeStatementBuilder
     replaceTagsByValue).
Local Abbreviation new_IdentityProvider :=
  (constructor console_warn attributeStatementBuilder replaceTagsByValue
     Entity_constructor).

Implicit Types (idpSetting s : object) (w : World).

(** Without a (truthy) template the merged settings go to [super] as
    they are, and nothing else happens. *)
Lemma constructor_without_template idpSetting w :
  truthy (get idpSetting "loginResponseTemplate") = false →
  settings_for_super idpSetting w =
    (Ok (Object_assign defaultIdpEntitySetting idpSetting), w).
Proof. intros H. unfold constructor_entitySetting. by rewrite H. Qed.

(** A truthy template is an own property of [idpSetting], so the merge
    holds the very same one. *)
Lemma merged_template idpSetting :
  truthy (get idpSetting "loginResponseTemplate") = true →
  get (Object_assign defaultIdpEntitySetting idpSetting) "loginResponseTemplate"
    = get idpSetting "loginResponseTemplate".
Proof.
  unfold get.
  destruct (idpSetting !! "loginResponseTemplate") as [v|] eqn:Hv; [|done].
  intros _. by rewrite (Object_assign_source _ _ _ _ Hv).
Qed.

(** The constructor, path by path, as a function of the world. *)
Lemma constructor_paths idpSetting w :
  let merged := Object_assign defaultIdpEntitySetting idpSetting in
  let template := get idpSetting "loginResponseTemplate" in
  settings_for_super idpSetting w =
    if truthy template then
      if isString (prop template "context")
         && Array_isArray (prop template "attributes")
      then
        match attributeStatementBuilder (prop template "attributes") with
        | Ok statement =>
            match replaceTagsByValue (prop template "context")
                    {[ "AttributeStatement" := VStr statement ]} with
            | Ok new =>
                (Ok (<[ "loginResponseTemplate" :=
                          VObj (<[ "context" := VStr new ]> (spread template)) ]>
                       merged), w)
            | Throw e => (Throw e, w)
            end
        | Throw e => (Throw e, w)
        end
      else (Ok merged, console_warn "Invalid login response template" w)
    else (Ok merged, w).
Proof.
  intros merged template. unfold constructor_entitySetting.
  fold merged template.
  destruct (truthy template) eqn:Htpl; [|done].
  run. subst merged. rewrite (merged_template _ Htpl). fold template.
  rewrite !member_truthy by exact Htpl.
  destruct (isString (prop template "context")); simpl; [|done].
  destruct (Array_isArray (prop template "attributes")); simpl; [|done].
  destruct (attributeStatementBuilder _); [|done].
  by destruct (replaceTagsByValue _ _).
Qed.

(** Whatever the template, the constructor touches no other key of the
    merged settings. *)
Lemma constructor_other_keys idpSetting w s w' (k : string) :
  settings_for_super idpSetting w = (Ok s, w') →
  k ≠ "loginResponseTemplate" →
  s !! k = Object_assign defaultIdpEntitySetting idpSetting !! k.
Proof.
  rewrite constructor_paths. intros H Hk.
  destruct (truthy _); [|by inversion H].
  destruct (isString _ && Array_isArray _); [|by inversion H].
  destruct (attributeStatementBuilder _); [|done].
  destruct (replaceTagsByValue _ _); [|done].
  inversion H; subst. by rewrite lookup_insert_ne.
Qed.

(** C7: the constructor merges the default settings with the caller's,
    the caller's value winning key by key. Line 62 computes the merge for
    every [idpSetting]: a caller who leaves out [wantAuthnRequestsSigned]
    gets [false], one who leaves out [tagPrefix] gets the prefix [saml]
    for encrypted assertions, and every key the caller binds keeps the
    caller's value, [__proto__] apart: an assignment to that key sets the
    prototype and binds nothing. The settings handed to [super] agree with
    the merge on every key but the template, and without a template they
    are the merge. *)
Theorem constructor_merges_defaults idpSetting :
  let merged := Object_assign defaultIdpEntitySetting idpSetting in
  (idpSetting !! "wantAuthnRequestsSigned" = None →
     get merged "wantAuthnRequestsSigned" = VBool false) ∧
  (idpSetting !! "tagPrefix" = None →
     member (get merged "tagPrefix") "encryptedAssertion" = Ok (VStr "saml")) ∧
  (∀ k v, k ≠ "__proto__" → idpSetting !! k = Some v → merged !! k = Some v) ∧
  merged !! "__proto__" = None ∧
  (∀ w s w' k, settings_for_super idpSetting w = (Ok s, w') →
     k ≠ "loginResponseTemplate" → s !! k = merged !! k) ∧
  (truthy (get idpSetting "loginResponseTemplate") = false →
     ∀ w, settings_for_super idpSetting w = (Ok merged, w)).
Proof.
  intros merged. repeat split.
  - intros H. apply get_own. subst merged.
    by rewrite Object_assign_target.
  - intros H. unfold get. subst merged.
    by rewrite Object_assign_target.
  - intros k v Hk H. by apply Object_assign_source.
  - by apply Object_assign_proto.
  - intros w s w' k H Hk. by eapply constructor_other_keys.
  - intros H w. by apply constructor_without_template.
Qed.

(** C9: the merge is shallow. A [tagPrefix] the caller supplies replaces
    the default one wholesale, in the merge and in the settings handed
    to [super]; when it is an object without [encryptedAssertion] (the
    empty object, say), the settings hold no prefix for encrypted
    assertions at all. *)
Theorem tagPrefix_replaced_wholesale idpSetting (tagPrefix : value) :
  idpSetting !! "tagPrefix" = Some tagPrefix →
  Object_assign defaultIdpEntitySetting idpSetting !! "tagPrefix"
    = Some tagPrefix ∧
  (∀ w s w', settings_for_super idpSetting w = (Ok s, w') →
     s !! "tagPrefix" = Some tagPrefix ∧
     ∀ o : object, tagPrefix = VObj o → o !! "encryptedAssertion" = None →
       member (get s "tagPrefix") "encryptedAssertion" = Ok VUndefined).
Proof.
  intros H.
  pose proof (Object_assign_source defaultIdpEntitySetting _ _ _ H
                ltac:(done)) as Hm.
  split; [done|]. intros w s w' Hs.
  assert (s !! "tagPrefix" = Some tagPrefix) as Hk.
  { by rewrite (constructor_other_keys _ _ _ _ "tagPrefix" Hs). }
  split; [done|]. intros o -> Ho.
  rewrite (get_own _ _ _ Hk). simpl. unfold get. by rewrite Ho.
Qed.

(** C10: a key the caller binds to undefined overrides the default. When
    [idpSetting] holds [wantAuthnRequestsSigned] with the value
    undefined, the merged setting is undefined, not the default [false],
    and so it is in the settings handed to [super]. *)
Theorem undefined_overrides_default idpSetting :
  idpSetting !! "wantAuthnRequestsSigned" = Some VUndefined →
  Object_assign defaultIdpEntitySetting idpSetting !! "wantAuthnRequestsSigned"
    = Some VUndefined ∧
  (∀ w s w', settings_for_super idpSetting w = (Ok s, w') →
     s !! "wantAuthnRequestsSigned" = Some VUndefined ∧
     get s "wantAuthnRequestsSigned" ≠ VBool false).
Proof.
  intros H.
  pose proof (Object_assign_source defaultIdpEntitySetting _ _ _ H
                ltac:(done)) as Hm.
  split; [done|]. intros w s w' Hs.
  assert (s !! "wantAuthnRequestsSigned" = Some VUndefined) as Hk.
  { by rewrite (constructor_other_keys _ _ _ _ "wantAuthnRequestsSigned" Hs). }
  split; [done|]. by rewrite (get_own _ _ _ Hk).
Qed.

(** C2, as the code has it: when [idpSetting] holds a (truthy)
    [loginResponseTemplate] whose [context] is not a string or whose
    [attributes] is not an array, the constructor's own body throws
    nothing, warns once and does nothing else: [super] receives the plain
    merge, in which the template is still the one the caller supplied,
    without the AttributeStatement substitution. *)
Theorem invalid_template_warns_and_stays idpSetting (template : value) w :
  idpSetting !! "loginResponseTemplate" = Some template →
  truthy template = true →
  isString (prop template "context")
    && Array_isArray (prop template "attributes") = false →
  let merged := Object_assign defaultIdpEntitySetting idpSetting in
  let warned := console_warn "Invalid login response template" w in
  settings_for_super idpSetting w = (Ok merged, warned) ∧
  merged !! "loginResponseTemplate" = Some template ∧
  new_IdentityProvider idpSetting w = Entity_constructor merged "idp" warned.
Proof.
  intros Hown Htruthy Hinvalid merged warned.
  assert (settings_for_super idpSetting w = (Ok merged, warned)) as Hs.
  { rewrite constructor_paths, (get_own _ _ _ Hown).
    by rewrite Htruthy, Hinvalid. }
  split; [done|]. split; [by apply Object_assign_source|].
  unfold constructor. run. by rewrite Hs.
Qed.

(** C6: when the template of [idpSetting] has a string [context] and an
    array [attributes], and the two libsaml builders return, the
    constructor stores the caller's template with its context replaced by
    [replaceTagsByValue(context, {AttributeStatement:
    attributeStatementBuilder(attributes)})]; the other properties of the
    template and the other settings are kept, and nothing is printed. *)
Theorem valid_template_is_prepared idpSetting (template : object)
    (context statement new : string) (attributes : list value) w :
  idpSetting !! "loginResponseTemplate" = Some (VObj template) →
  template !! "context" = Some (VStr context) →
  template !! "attributes" = Some (VArr attributes) →
  attributeStatementBuilder (VArr attributes) = Ok statement →
  replaceTagsByValue (VStr context)
    {[ "AttributeStatement" := VStr statement ]} = Ok new →
  ∃ s, settings_for_super idpSetting w = (Ok s, w) ∧
       s = <[ "loginResponseTemplate" :=
                VObj (<[ "context" := VStr new ]> template) ]>
             (Object_assign defaultIdpEntitySetting idpSetting) ∧
       member (get s "loginResponseTemplate") "context" = Ok (VStr new) ∧
       (∀ k, k ≠ "context" →
          member (get s "loginResponseTemplate") k = member (VObj template) k).
Proof.
  intros Hown Hctx Hattrs Hbuilt Hreplaced. eexists. split.
  - rewrite constructor_paths, (get_own _ _ _ Hown). simpl.
    unfold prop. simpl. rewrite (get_own _ _ _ Hctx), (get_own _ _ _ Hattrs).
    simpl. by rewrite Hbuilt, Hreplaced.
  - split; [done|]. erewrite get_own by apply lookup_insert_eq.
    simpl. split.
    + by erewrite get_own by apply lookup_insert_eq.
    + intros k Hk. unfold get. by rewrite lookup_insert_ne.
Qed.

Local Abbreviation IdentityProvider_of :=
  (default_export console_warn attributeStatementBuilder replaceTagsByValue
     Entity_constructor).

Lemma dom_merged idpSetting :
  dom (Object_assign defaultIdpEntitySetting idpSetting)
  = dom idpSetting ∖ {[ "__proto__" ]}
    ∪ {[ "wantAuthnRequestsSigned"; "tagPrefix" ]}.
Proof.
  unfold Object_assign.
  change (defaultIdpEntitySetting !! "__proto__") with (@None value).
  unfold defaultIdpEntitySetting.
  by rewrite dom_union_L, dom_delete_L, dom_insert_L, dom_singleton_L.
Qed.

(** X1: the settings handed to [super] bind the keys the caller binds,
    [__proto__] apart, and the two default keys, [wantAuthnRequestsSigned]
    and [tagPrefix], and no other: an own [__proto__] of the caller is
    never a key of the settings, and preparing the template adds no key
    and drops none. *)
Theorem constructor_settings_keys idpSetting w s w' :
  constructor_entitySetting console_warn attributeStatementBuilder
    replaceTagsByValue idpSetting w = (Ok s, w') →
  dom s = dom idpSetting ∖ {[ "__proto__" ]}
          ∪ {[ "wantAuthnRequestsSigned"; "tagPrefix" ]}.
Proof.
  rewrite constructor_paths. intros H.
  destruct (truthy _) eqn:Htpl;
    [|inversion H; subst; apply dom_merged].
  destruct (isString _ && Array_isArray _);
    [|inversion H; subst; apply dom_merged].
  destruct (attributeStatementBuilder _); [|done].
  destruct (replaceTagsByValue _ _); [|done].
  inversion H; subst. rewrite dom_insert_L, dom_merged.
  assert ("loginResponseTemplate" ∈ dom idpSetting) as Hin.
  { apply elem_of_dom. unfold get in Htpl.
    by destruct (idpSetting !! "loginResponseTemplate"). }
  apply subseteq_union_1_L, singleton_subseteq_l, elem_of_union_l.
  apply elem_of_difference. split; [done|].
  by rewrite elem_of_singleton.
Qed.

(** X2: the constructor prints its warning exactly when the template is
    truthy and ill-shaped ([context] no string or [attributes] no array),
    and then once; on every other path, a throwing one included, it leaves
    the world as it found it. *)
Theorem constructor_warns_exactly_when_invalid idpSetting w :
  let template := get idpSetting "loginResponseTemplate" in
  (settings_for_super idpSetting w).2 =
    if truthy template
       && negb (isString (prop template "context")
                && Array_isArray (prop template "attributes"))
    then console_warn "Invalid login response template" w
    else w.
Proof.
  intros template. rewrite constructor_paths. fold template.
  destruct (truthy template); [|done].
  destruct (isString _ && Array_isArray _); [|done]. simpl.
  destruct (attributeStatementBuilder _); [|done].
  by destruct (replaceTagsByValue _ _).
Qed.

(** X4: a builder that throws on a well-shaped template makes the default
    export (and [new IdentityProvider]) fail with the builder's error
    before [super] is entered: no entity is made, nothing is printed and
    the world is untouched, whatever the Entity constructor would do. *)
Theorem default_export_fails_before_super (props template : object)
    (context : string) (attributes : list value) (e : exn) w :
  props !! "loginResponseTemplate" = Some (VObj template) →
  template !! "context" = Some (VStr context) →
  template !! "attributes" = Some (VArr attributes) →
  (attributeStatementBuilder (VArr attributes) = Throw e ∨
   ∃ statement,
     attributeStatementBuilder (VArr attributes) = Ok statement ∧
     replaceTagsByValue (VStr context)
       {[ "AttributeStatement" := VStr statement ]} = Throw e) →
  IdentityProvider_of props w = (Throw e, w).
Proof.
  intros Hown Hctx Hattrs Hfail.
  assert (settings_for_super props w = (Throw e, w)) as Hs.
  { rewrite constructor_paths, (get_own _ _ _ Hown). simpl.
    unfold prop. simpl. rewrite (get_own _ _ _ Hctx), (get_own _ _ _ Hattrs).
    simpl. destruct Hfail as [->|(statement & -> & ->)]; done. }
  unfold default_export, constructor. run. by rewrite Hs.
Qed.

End Constructor.

Section Methods.

Context {World Entity : Type}.
Variable namespace_binding : gmap string string.
Variable base64LoginResponse :
  value → Entity → Entity → value → value → value → M World value.
Variable genericParser :
  Entity → ParserOptions Entity → string → value → M World value.
Variable getAssertionConsumerService : Entity → string → M World value.
Variable isWantAuthnRequestsSigned : Entity → M World value.

Local Abbreviation login_response :=
  (createLoginResponse namespace_binding base64LoginResponse
     getAssertionConsumerService).
Local Abbreviation login_request :=
  (parseLoginRequest genericParser isWantAuthnRequestsSigned).

Implicit Types (this sp : Entity) (w : World) (binding : string).

(** C1: for every binding other than [post] (artifact, redirect, a name
    the table does not know, a member of [Object.prototype]), under a
    table that names the POST protocol under [post] only,
    [createLoginResponse] throws the error of line 105 (the unsupported
    binding failure), returns no payload and leaves the world as it
    found it: no collaborator ran, so nothing was signed or encrypted. *)
Theorem unsupported_binding_throws this sp (requestInfo : value) binding
    (user customTagReplacement encryptThenSign : value) w :
  post_is_unique namespace_binding = true →
  binding ≠ "post" →
  login_response this sp requestInfo binding user customTagReplacement
    encryptThenSign w
  = (Throw (Error "this binding is not supported"), w).
Proof.
  intros Htable Hne. unfold createLoginResponse, namespace.
  by rewrite (protocol_not_post _ _ Htable Hne).
Qed.

(** X5: under a table whose POST protocol is a non-empty URN, a call with
    [post] returns as soon as its two collaborators do: the payload is the
    context, spread, with [entityEndpoint] and [type] set, and the world is
    the one the endpoint accessor left. *)
Lemma post_binding_returns this sp (requestInfo : value)
    (user customTagReplacement encryptThenSign context endpoint : value)
    (urn : string) w w1 w2 :
  namespace_binding !! "post" = Some urn → urn ≠ "" →
  base64LoginResponse requestInfo this sp user customTagReplacement
    encryptThenSign w = (Ok context, w1) →
  getAssertionConsumerService sp "post" w1 = (Ok endpoint, w2) →
  login_response this sp requestInfo "post" user customTagReplacement
    encryptThenSign w
  = (Ok (VObj (<[ "type" := VStr "SAMLResponse" ]>
                 (<[ "entityEndpoint" := endpoint ]> (spread context)))), w2).
Proof.
  intros Hpost Hurn Hcontext Hendpoint.
  unfold createLoginResponse, namespace.
  rewrite (get_namespace _ "post"), Hpost. unfold or_else. simpl.
  apply String.eqb_neq in Hurn. rewrite Hurn. simpl.
  rewrite String.eqb_refl. run. by rewrite Hcontext, Hendpoint.
Qed.

(** C5: a call of [createLoginResponse] that returns has gone through the
    POST branch: the payload is the context [base64LoginResponse]
    resolved to, spread, with [entityEndpoint] set to what the service
    provider's [getAssertionConsumerService(binding)] returned and [type]
    set to the string SAMLResponse. *)
Theorem login_response_payload this sp (requestInfo : value) binding
    (user customTagReplacement encryptThenSign payload : value) w w' :
  login_response this sp requestInfo binding user customTagReplacement
    encryptThenSign w = (Ok payload, w') →
  ∃ context w1 endpoint,
    base64LoginResponse requestInfo this sp user customTagReplacement
      encryptThenSign w = (Ok context, w1) ∧
    getAssertionConsumerService sp binding w1 = (Ok endpoint, w') ∧
    member payload "type" = Ok (VStr "SAMLResponse") ∧
    member payload "entityEndpoint" = Ok endpoint ∧
    (∀ k, k ≠ "type" → k ≠ "entityEndpoint" →
       member payload k = Ok (get (spread context) k)).
Proof.
  unfold createLoginResponse. destruct (strict_eq _ _); [|done]. run.
  destruct (base64LoginResponse _ _ _ _ _ _ w) as [[context|e] w1] eqn:Hc;
    [|done].
  destruct (getAssertionConsumerService sp binding w1)
    as [[endpoint|e] w2] eqn:He; [|done].
  intros [= <- <-]. exists context, w1, endpoint.
  split; [done|]. split; [done|]. simpl. split; [|split].
  - by erewrite get_own by apply lookup_insert_eq.
  - erewrite get_own; [done|]. rewrite lookup_insert_ne by done.
    apply lookup_insert_eq.
  - intros k Hk1 Hk2. unfold get. by rewrite !lookup_insert_ne.
Qed.

(** C3: [parseLoginRequest] reads this entity's
    [isWantAuthnRequestsSigned()] and enters the generic parser once,
    with the format of lines 117-126, [from] the service provider,
    [checkSignature] the flag just read, parser type SAMLRequest and
    type login, on the caller's binding and request. Read the way the
    parser reads a format, the entries are the five fields the
    specification lists. *)
Theorem login_request_invokes_parser this sp binding (req : value) w :
  login_request this sp binding req w =
    match isWantAuthnRequestsSigned this w with
    | (Ok wanted, w1) =>
        genericParser this
          {| parserFormat := loginRequestParserFormat;
             from := sp;
             checkSignature := wanted;
             parserType := "SAMLRequest";
             type := "login" |}
          binding req w1
    | (Throw e, w1) => (Throw e, w1)
    end
  ∧ describe <$> loginRequestParserFormat = Some <$> login_request_fields.
Proof.
  split; [|done]. unfold parseLoginRequest. run.
  by destruct (isWantAuthnRequestsSigned this w) as [[wanted|e] w1].
Qed.

(** The POST branch is taken on [post] under such a table. *)
Lemma post_resolves_to_post (urn : string) :
  namespace_binding !! "post" = Some urn → urn ≠ "" →
  strict_eq (or_else (get (VStr <$> namespace_binding) "post")
                     (get (VStr <$> namespace_binding) "redirect"))
            (get (VStr <$> namespace_binding) "post") = true.
Proof.
  intros Hpost Hurn. rewrite (get_namespace _ "post"), Hpost.
  unfold or_else. simpl. apply String.eqb_neq in Hurn. rewrite Hurn. simpl.
  apply String.eqb_refl.
Qed.

(** X6: when [base64LoginResponse] fails on the POST binding, the call
    fails with the same error in the world the builder left behind,
    whatever the endpoint accessor is: the endpoint is not looked up. *)
Theorem response_failure_skips_endpoint this sp (requestInfo : value)
    (user customTagReplacement encryptThenSign : value) (urn : string)
    (e : exn) w w1 :
  namespace_binding !! "post" = Some urn → urn ≠ "" →
  base64LoginResponse requestInfo this sp user customTagReplacement
    encryptThenSign w = (Throw e, w1) →
  login_response this sp requestInfo "post" user customTagReplacement
    encryptThenSign w = (Throw e, w1).
Proof.
  intros Hpost Hurn Hcontext. unfold createLoginResponse, namespace.
  rewrite (post_resolves_to_post urn Hpost Hurn). run. by rewrite Hcontext.
Qed.

(** X7: when the endpoint accessor fails after [base64LoginResponse] has
    returned, the call fails with the accessor's error and returns no
    payload, but what the builder did to the world stays done. *)
Theorem endpoint_failure_keeps_response_effects this sp (requestInfo : value)
    (user customTagReplacement encryptThenSign context : value)
    (urn : string) (e : exn) w w1 w2 :
  namespace_binding !! "post" = Some urn → urn ≠ "" →
  base64LoginResponse requestInfo this sp user customTagReplacement
    encryptThenSign w = (Ok context, w1) →
  getAssertionConsumerService sp "post" w1 = (Throw e, w2) →
  login_response this sp requestInfo "post" user customTagReplacement
    encryptThenSign w = (Throw e, w2).
Proof.
  intros Hpost Hurn Hcontext Hendpoint. unfold createLoginResponse, namespace.
  rewrite (post_resolves_to_post urn Hpost Hurn). run.
  by rewrite Hcontext, Hendpoint.
Qed.

(** X8: a payload is always an object, and its own keys are those of the
    context [base64LoginResponse] resolved to, plus [type] and
    [entityEndpoint]; when the context is undefined, null or another
    primitive without own properties, these two are all it has. *)
Theorem login_response_payload_keys this sp (requestInfo : value) binding
    (user customTagReplacement encryptThenSign payload : value) w w' :
  login_response this sp requestInfo binding user customTagReplacement
    encryptThenSign w = (Ok payload, w') →
  ∃ context w1 (fields : object),
    base64LoginResponse requestInfo this sp user customTagReplacement
      encryptThenSign w = (Ok context, w1) ∧
    payload = VObj fields ∧
    dom fields = dom (spread context) ∪ {[ "type"; "entityEndpoint" ]} ∧
    (Array_isArray context = false → isString context = false →
     (∀ o, context ≠ VObj o) → dom fields = {[ "type"; "entityEndpoint" ]}).
Proof.
  unfold createLoginResponse. destruct (strict_eq _ _); [|done]. run.
  destruct (base64LoginResponse _ _ _ _ _ _ w) as [[context|e] w1] eqn:Hc;
    [|done].
  destruct (getAssertionConsumerService sp binding w1)
    as [[endpoint|e] w2] eqn:He; [|done].
  intros [= <- <-]. exists context, w1. eexists.
  split; [done|]. split; [done|]. rewrite !dom_insert_L. split.
  - by rewrite (assoc_L (∪)), (comm_L (∪)).
  - intros Harr Hstr Hobj.
    assert (spread context = ∅) as ->.
    { destruct context; try done. by destruct (Hobj props). }
    by rewrite dom_empty_L, (right_id_L ∅ (∪)).
Qed.

End Methods.

Section SignedRequests.

Context {World Entity Dom Cert : Type}.
Variable decode : string → value → option string.
Variable parse_xml : string → option Dom.
Variable has_signature : Dom → bool.
Variable verify : string → Cert → bool.
Variable certificate : Entity → World → Cert.
Variable extract_fields : list value → Dom → option object.
Variable isWantAuthnRequestsSigned : Entity → M World value.

Local Abbreviation login_request :=
  (parseLoginRequest
     (genericParser_spec decode parse_xml has_signature verify certificate
        extract_fields)
     isWantAuthnRequestsSigned).

Implicit Types (this sp : Entity) (w : World) (binding xml : string).

(** C4: when this identity provider wants signed requests, a request
    that decodes and parses but carries no signature, or one that does
    not verify against the certificate of the sending service provider,
    makes [parseLoginRequest] fail with SignatureVerificationError: no
    field is extracted and no result map returned. *)
Theorem unverified_request_is_rejected this sp binding (req wanted : value)
    xml (doc : Dom) w w1 :
  isWantAuthnRequestsSigned this w = (Ok wanted, w1) →
  truthy wanted = true →
  decode binding req = Some xml →
  parse_xml xml = Some doc →
  has_signature doc && verify xml (certificate sp w1) = false →
  login_request this sp binding req w = (Throw SignatureVerificationError, w1).
Proof.
  intros Hwanted Htruthy Hdecode Hparse Hverify.
  unfold parseLoginRequest, genericParser_spec. run.
  by rewrite Hwanted, Hdecode, Hparse, Htruthy, Hverify.
Qed.

(** The same request with a signature that verifies is parsed. *)
Lemma verified_request_is_parsed this sp binding (req wanted : value)
    xml (doc : Dom) (fields : object) w w1 :
  isWantAuthnRequestsSigned this w = (Ok wanted, w1) →
  decode binding req = Some xml →
  parse_xml xml = Some doc →
  has_signature doc && verify xml (certificate sp w1) = true →
  extract_fields loginRequestParserFormat doc = Some fields →
  login_request this sp binding req w = (Ok (VObj fields), w1).
Proof.
  intros Hwanted Hdecode Hparse Hverify Hfields.
  unfold parseLoginRequest, genericParser_spec. run.
  rewrite Hwanted, Hdecode, Hparse, Hverify, Hfields.
  by rewrite andb_false_r.
Qed.

End SignedRequests.

(** ** The statements on the concrete deployment *)

Lemma unsupported_binding_throws_witness :
  post_is_unique Fixture.bindings = true ∧
  "artifact" ≠ "post" ∧
  createLoginResponse Fixture.bindings Fixture.base64LoginResponse
    Fixture.getAssertionConsumerService Fixture.idp Fixture.sp VUndefined
    "artifact" VUndefined VUndefined VUndefined Fixture.w0
  = (Throw (Error "this binding is not supported"), Fixture.w0).
Proof.
  assert (post_is_unique Fixture.bindings = true) as Htable
    by (vm_compute; reflexivity).
  assert ("artifact" ≠ "post") as Hne by discriminate.
  split; [exact Htable|]. split; [exact Hne|].
  exact (unsupported_binding_throws Fixture.bindings
           Fixture.base64LoginResponse Fixture.getAssertionConsumerService
           Fixture.idp Fixture.sp VUndefined "artifact" VUndefined VUndefined
           VUndefined Fixture.w0 Htable Hne).
Defined.

(** The same on the redirect binding, on a name the table does not know
    and on a member of [Object.prototype]. *)
Example other_bindings_throw :
  Forall (λ binding,
            (createLoginResponse Fixture.bindings Fixture.base64LoginResponse
               Fixture.getAssertionConsumerService Fixture.idp Fixture.sp
               VUndefined binding VUndefined VUndefined VUndefined Fixture.w0).1
            = Throw (Error "this binding is not supported"))
         ["redirect"; "simpleSign"; "POST"; ""; "constructor"; "__proto__"].
Proof. repeat constructor. Qed.

(** A template without an attribute list is not left unset: it is still
    in the settings after construction. *)
Lemma malformed_template_stays_set :
  Array_isArray
    (prop (get Fixture.malformed "loginResponseTemplate") "attributes") = false ∧
  ∃ s, constructor_entitySetting Fixture.warn Fixture.attributeStatementBuilder
         Fixture.replaceTagsByValue Fixture.malformed Fixture.w0
       = (Ok s, Fixture.warn "Invalid login response template" Fixture.w0) ∧
       s !! "loginResponseTemplate"
       = Some (VObj {[ "context" :=
                         VStr "<samlp:Response>{AttributeStatement}</samlp:Response>" ]}) ∧
       get s "loginResponseTemplate" ≠ VUndefined.
Proof.
  split; [reflexivity|]. eexists. split; [reflexivity|].
  split; [reflexivity|]. discriminate.
Qed.

(** A template that is present but falsy passes without a warning. *)
Example null_template_is_silent :
  constructor_entitySetting Fixture.warn Fixture.attributeStatementBuilder
    Fixture.replaceTagsByValue Fixture.null_template Fixture.w0
  = (Ok (Object_assign defaultIdpEntitySetting Fixture.null_template),
     Fixture.w0).
Proof. reflexivity. Qed.

(** The signature of the untouched request verifies, and the request is
    parsed. *)
Example genuine_request_is_parsed :
  Fixture.verify Fixture.genuine (Fixture.certificate Fixture.sp Fixture.w0)
    = true ∧
  (parseLoginRequest Fixture.genericParser Fixture.isWantAuthnRequestsSigned
     Fixture.idp Fixture.sp "post" (VStr Fixture.genuine) Fixture.w0).1
  = Ok (VObj {[ "issuer" := VStr Fixture.genuine ]}).
Proof. split; vm_compute; reflexivity. Qed.

Lemma invalid_template_warns_and_stays_witness :
  Fixture.malformed !! "loginResponseTemplate"
    = Some (get Fixture.malformed "loginResponseTemplate") ∧
  truthy (get Fixture.malformed "loginResponseTemplate") = true ∧
  constructor_entitySetting Fixture.warn Fixture.attributeStatementBuilder
    Fixture.replaceTagsByValue Fixture.malformed Fixture.w0
  = (Ok (Object_assign defaultIdpEntitySetting Fixture.malformed),
     Fixture.warn "Invalid login response template" Fixture.w0).
Proof.
  assert (Fixture.malformed !! "loginResponseTemplate"
          = Some (get Fixture.malformed "loginResponseTemplate")) as Hown
    by reflexivity.
  assert (truthy (get Fixture.malformed "loginResponseTemplate") = true)
    as Htruthy by reflexivity.
  split; [exact Hown|]. split; [exact Htruthy|].
  exact (proj1 (invalid_template_warns_and_stays Fixture.warn
                  Fixture.attributeStatementBuilder Fixture.replaceTagsByValue
                  Fixture.Entity_constructor Fixture.malformed _ Fixture.w0
                  Hown Htruthy eq_refl)).
Defined.

Lemma valid_template_is_prepared_witness :
  ∃ s, constructor_entitySetting Fixture.warn Fixture.attributeStatementBuilder
         Fixture.replaceTagsByValue Fixture.custom Fixture.w0 = (Ok s, Fixture.w0) ∧
       member (get s "loginResponseTemplate") "context"
       = Ok (VStr ("<samlp:Response><saml:AttributeStatement>"
                   ++ "<saml:Attribute Name='mail'><saml:AttributeValue>{attrMail}"
                   ++ "</saml:AttributeValue></saml:Attribute>"
                   ++ "<saml:Attribute Name='name'><saml:AttributeValue>{attrName}"
                   ++ "</saml:AttributeValue></saml:Attribute>"
                   ++ "</saml:AttributeStatement></samlp:Response>")).
Proof.
  destruct (valid_template_is_prepared Fixture.warn
              Fixture.attributeStatementBuilder Fixture.replaceTagsByValue
              Fixture.custom Fixture.template _ _ _ _ Fixture.w0
              eq_refl eq_refl eq_refl eq_refl eq_refl)
    as (s & Hs & _ & Hcontext & _).
  exists s. split; [exact Hs|exact Hcontext].
Defined.

Lemma constructor_merges_defaults_witness :
  Fixture.plain !! "wantAuthnRequestsSigned" = None ∧
  Fixture.plain !! "tagPrefix" = None ∧
  get (Object_assign defaultIdpEntitySetting Fixture.plain)
    "wantAuthnRequestsSigned" = VBool false ∧
  member (get (Object_assign defaultIdpEntitySetting Fixture.plain) "tagPrefix")
    "encryptedAssertion" = Ok (VStr "saml") ∧
  constructor_entitySetting Fixture.warn Fixture.attributeStatementBuilder
    Fixture.replaceTagsByValue Fixture.plain Fixture.w0
  = (Ok (Object_assign defaultIdpEntitySetting Fixture.plain), Fixture.w0).
Proof.
  destruct (constructor_merges_defaults Fixture.warn
              Fixture.attributeStatementBuilder Fixture.replaceTagsByValue
              Fixture.plain) as (Hflag & Hprefix & _ & _ & _ & Hplain).
  split; [reflexivity|]. split; [reflexivity|].
  split; [exact (Hflag eq_refl)|]. split; [exact (Hprefix eq_refl)|].
  exact (Hplain eq_refl Fixture.w0).
Defined.

Lemma tagPrefix_replaced_wholesale_witness :
  Fixture.bare_prefix !! "tagPrefix" = Some (VObj ∅) ∧
  ∃ s, constructor_entitySetting Fixture.warn Fixture.attributeStatementBuilder
         Fixture.replaceTagsByValue Fixture.bare_prefix Fixture.w0
       = (Ok s, Fixture.w0) ∧
       s !! "tagPrefix" = Some (VObj ∅) ∧
       member (get s "tagPrefix") "encryptedAssertion" = Ok VUndefined.
Proof.
  assert (Fixture.bare_prefix !! "tagPrefix" = Some (VObj ∅)) as Hown
    by reflexivity.
  split; [exact Hown|]. eexists. split; [reflexivity|].
  destruct (tagPrefix_replaced_wholesale Fixture.warn
              Fixture.attributeStatementBuilder Fixture.replaceTagsByValue
              Fixture.bare_prefix (VObj ∅) Hown) as [_ Hs].
  destruct (Hs Fixture.w0 _ Fixture.w0 eq_refl) as [Hk Hnone].
  split; [exact Hk|]. exact (Hnone ∅ eq_refl eq_refl).
Defined.

Lemma undefined_overrides_default_witness :
  Fixture.unset_flag !! "wantAuthnRequestsSigned" = Some VUndefined ∧
  ∃ s, constructor_entitySetting Fixture.warn Fixture.attributeStatementBuilder
         Fixture.replaceTagsByValue Fixture.unset_flag Fixture.w0
       = (Ok s, Fixture.w0) ∧
       s !! "wantAuthnRequestsSigned" = Some VUndefined ∧
       get s "wantAuthnRequestsSigned" ≠ VBool false.
Proof.
  assert (Fixture.unset_flag !! "wantAuthnRequestsSigned" = Some VUndefined)
    as Hown by reflexivity.
  split; [exact Hown|]. eexists. split; [reflexivity|].
  destruct (undefined_overrides_default Fixture.warn
              Fixture.attributeStatementBuilder Fixture.replaceTagsByValue
              Fixture.unset_flag Hown) as [_ Hs].
  exact (Hs Fixture.w0 _ Fixture.w0 eq_refl).
Defined.

Lemma login_response_payload_witness :
  ∃ payload,
    createLoginResponse Fixture.bindings Fixture.base64LoginResponse
      Fixture.getAssertionConsumerService Fixture.idp Fixture.sp VUndefined
      "post" VUndefined VUndefined VUndefined Fixture.w0
    = (Ok payload, Fixture.w0) ∧
    member payload "type" = Ok (VStr "SAMLResponse") ∧
    member payload "entityEndpoint" = Ok (VStr "https://sp.example.org/sp/sso") ∧
    member payload "context" = Ok (VStr "PHNhbWxwOlJlc3BvbnNlLz4=").
Proof.
  eexists. split; [reflexivity|].
  destruct (login_response_payload Fixture.bindings Fixture.base64LoginResponse
              Fixture.getAssertionConsumerService Fixture.idp Fixture.sp
              VUndefined "post" VUndefined VUndefined VUndefined _
              Fixture.w0 Fixture.w0 eq_refl)
    as (context & w1 & endpoint & Hcontext & Hendpoint & Htype & Hep & Hrest).
  injection Hcontext as <- <-. injection Hendpoint as <-.
  split; [exact Htype|]. split; [exact Hep|].
  exact (Hrest "context" ltac:(discriminate) ltac:(discriminate)).
Defined.

Lemma unverified_request_is_rejected_witness :
  Fixture.isWantAuthnRequestsSigned Fixture.idp Fixture.w0
    = (Ok (VBool true), Fixture.w0) ∧
  Fixture.has_signature Fixture.altered
    && Fixture.verify Fixture.altered (Fixture.certificate Fixture.sp Fixture.w0)
    = false ∧
  parseLoginRequest Fixture.genericParser Fixture.isWantAuthnRequestsSigned
    Fixture.idp Fixture.sp "post" (VStr Fixture.altered) Fixture.w0
  = (Throw SignatureVerificationError, Fixture.w0).
Proof.
  split; [reflexivity|]. split; [reflexivity|].
  exact (unverified_request_is_rejected Fixture.decode Fixture.parse_xml
           Fixture.has_signature Fixture.verify Fixture.certificate
           Fixture.extract_fields Fixture.isWantAuthnRequestsSigned
           Fixture.idp Fixture.sp "post" (VStr Fixture.altered) (VBool true)
           Fixture.altered Fixture.altered Fixture.w0 Fixture.w0
           eq_refl eq_refl eq_refl eq_refl eq_refl).
Defined.

Lemma constructor_settings_keys_witness :
  ∃ s, constructor_entitySetting Fixture.warn Fixture.attributeStatementBuilder
         Fixture.replaceTagsByValue Fixture.parsed Fixture.w0 = (Ok s, Fixture.w0) ∧
       dom s = {[ "entityID"; "wantAuthnRequestsSigned"; "tagPrefix" ]}.
Proof.
  eexists. split; [reflexivity|].
  rewrite (constructor_settings_keys Fixture.warn
             Fixture.attributeStatementBuilder Fixture.replaceTagsByValue
             Fixture.parsed Fixture.w0 _ Fixture.w0 eq_refl).
  vm_compute. reflexivity.
Defined.

(** The [__proto__] member of parsed settings becomes the prototype of the
    settings and is no key of them. *)
Example parsed_proto_is_no_key :
  Object_assign defaultIdpEntitySetting Fixture.parsed !! "__proto__" = None ∧
  assigned_prototype defaultIdpEntitySetting Fixture.parsed
  = Some (VObj {[ "isAssertionEncrypted" := VBool true ]}).
Proof. split; reflexivity. Qed.

Lemma default_export_fails_before_super_witness :
  Fixture.attributeStatementBuilder (VArr [VNull]) = Throw (TypeError "name") ∧
  default_export Fixture.warn Fixture.attributeStatementBuilder
    Fixture.replaceTagsByValue Fixture.Entity_constructor Fixture.broken
    Fixture.w0
  = (Throw (TypeError "name"), Fixture.w0).
Proof.
  split; [reflexivity|].
  exact (default_export_fails_before_super Fixture.warn
           Fixture.attributeStatementBuilder Fixture.replaceTagsByValue
           Fixture.Entity_constructor Fixture.broken _ _ [VNull]
           (TypeError "name") Fixture.w0 eq_refl eq_refl eq_refl
           (or_introl eq_refl)).
Defined.

Lemma post_binding_returns_witness :
  Fixture.bindings !! "post"
    = Some "urn:oasis:names:tc:SAML:2.0:bindings:HTTP-POST" ∧
  createLoginResponse Fixture.bindings Fixture.base64LoginResponse
    Fixture.getAssertionConsumerService Fixture.idp Fixture.sp VUndefined
    "post" VUndefined VUndefined VUndefined Fixture.w0
  = (Ok (VObj (<[ "type" := VStr "SAMLResponse" ]>
                 (<[ "entityEndpoint" := VStr "https://sp.example.org/sp/sso" ]>
                    {[ "id" := VStr "_8e8dc5f69a98cc4c1ff3427e5ce34606fd672f91e6";
                       "context" := VStr "PHNhbWxwOlJlc3BvbnNlLz4=" ]}))),
     Fixture.w0).
Proof.
  split; [reflexivity|].
  exact (post_binding_returns Fixture.bindings Fixture.base64LoginResponse
           Fixture.getAssertionConsumerService Fixture.idp Fixture.sp
           VUndefined VUndefined VUndefined VUndefined
           (VObj {[ "id" := VStr "_8e8dc5f69a98cc4c1ff3427e5ce34606fd672f91e6";
                    "context" := VStr "PHNhbWxwOlJlc3BvbnNlLz4=" ]})
           (VStr "https://sp.example.org/sp/sso")
           "urn:oasis:names:tc:SAML:2.0:bindings:HTTP-POST"
           Fixture.w0 Fixture.w0 Fixture.w0
           eq_refl ltac:(discriminate) eq_refl eq_refl).
Defined.

Lemma response_failure_skips_endpoint_witness :
  Fixture.signing_base64LoginResponse VUndefined Fixture.idp Fixture.sp
    VUndefined VUndefined VUndefined Fixture.w0
  = (Throw (Error "ERR_NO_PRIVATE_KEY"), Fixture.w0) ∧
  createLoginResponse Fixture.bindings Fixture.signing_base64LoginResponse
    Fixture.checked_getAssertionConsumerService Fixture.idp Fixture.sp
    VUndefined "post" VUndefined VUndefined VUndefined Fixture.w0
  = (Throw (Error "ERR_NO_PRIVATE_KEY"), Fixture.w0).
Proof.
  split; [reflexivity|].
  exact (response_failure_skips_endpoint Fixture.bindings
           Fixture.signing_base64LoginResponse
           Fixture.checked_getAssertionConsumerService Fixture.idp Fixture.sp
           VUndefined VUndefined VUndefined VUndefined _ _ Fixture.w0 _
           eq_refl ltac:(discriminate) eq_refl).
Defined.

Lemma endpoint_failure_keeps_response_effects_witness :
  createLoginResponse Fixture.bindings Fixture.signing_base64LoginResponse
    Fixture.checked_getAssertionConsumerService Fixture.idp Fixture.sp
    VUndefined "post" VUndefined VUndefined VUndefined Fixture.w1
  = (Throw (Error "ERR_NO_ASSERTION_CONSUMER_SERVICE"),
     Fixture.warn "signed _8e8dc5f69a98cc4c1ff3427e5ce34606fd672f91e6"
       Fixture.w1).
Proof.
  exact (endpoint_failure_keeps_response_effects Fixture.bindings
           Fixture.signing_base64LoginResponse
           Fixture.checked_getAssertionConsumerService Fixture.idp Fixture.sp
           VUndefined VUndefined VUndefined VUndefined _ _ _ Fixture.w1 _ _
           eq_refl ltac:(discriminate) eq_refl eq_refl).
Defined.

Lemma login_response_payload_keys_witness :
  ∃ fields : object,
    (createLoginResponse Fixture.bindings Fixture.base64LoginResponse
       Fixture.getAssertionConsumerService Fixture.idp Fixture.sp VUndefined
       "post" VUndefined VUndefined VUndefined Fixture.w0).1
    = Ok (VObj fields) ∧
    dom fields = {[ "id"; "context" ]} ∪ {[ "type"; "entityEndpoint" ]}.
Proof.
  destruct (login_response_payload_keys Fixture.bindings
              Fixture.base64LoginResponse Fixture.getAssertionConsumerService
              Fixture.idp Fixture.sp VUndefined "post" VUndefined VUndefined
              VUndefined _ Fixture.w0 Fixture.w0 eq_refl)
    as (context & w1 & fields & Hcontext & Hpayload & Hkeys & _).
  exists fields. injection Hcontext as <- <-. split.
  - rewrite <- Hpayload. reflexivity.
  - rewrite Hkeys. vm_compute. reflexivity.
Defined.
